(** * autora-experiment-runner-firebase-prolific: the two runners

    A shallow embedding of [src/autora/experiment_runner/firebase_prolific/__init__.py]:
    [_firebase_run] (host only: Firebase) and [_firebase_prolific_run]
    (Firebase host plus Prolific recruitment).

    The external clients (Firebase and Prolific) are modelled as an
    environment that answers each call: the answer of [setup_study], the
    answers of the status polls, one per tick, and the observation dict
    returned by [get_observations].  A run returns the observable trace of the
    calls it issues, together with its outcome: the returned list, a raised
    Python exception, or [Polling] when the environment's answers run out
    while the [while True] loop is still going. *)

From stdpp Require Import base list sorting strings.
From Stdlib Require Import ZArith Lia.

Open Scope string_scope.
Open Scope list_scope.

(** ** Python values *)

(** Scalar Python values as they come back from the Prolific client. *)
Inductive pyval :=
| PyInt (z : Z)
| PyStr (s : string)
| PyNone.

(** The answer of [setup_study]: [None] or a dict (an association list,
    insertion ordered, as a Python dict). *)
Inductive pyobj :=
| PyNoneObj
| PyDict (kv : list (string * pyval)).

(** The Python exceptions a run can raise by itself. *)
Inductive exn :=
| KeyError (k : string)
| TypeError
| UnboundLocalError (v : string).

(** A small error monad for Python code that may raise. *)
Inductive res (A : Type) :=
| Ok (a : A)
| Err (e : exn).
Arguments Ok {A} a.
Arguments Err {A} e.

Definition res_bind {A B} (m : res A) (f : A -> res B) : res B :=
  match m with
  | Ok a => f a
  | Err e => Err e
  end.

Notation "'let?' x := m 'in' k" := (res_bind m (fun x => k))
  (at level 200, x name, m at level 100, k at level 200).

Fixpoint assoc_get {V} (kv : list (string * V)) (k : string) : option V :=
  match kv with
  | [] => None
  | (k', v) :: kv' => if String.eqb k k' then Some v else assoc_get kv' k
  end.

(** [d[k]] *)
Definition py_getitem (d : pyobj) (k : string) : res pyval :=
  match d with
  | PyNoneObj => Err TypeError
  | PyDict kv =>
      match assoc_get kv k with
      | Some v => Ok v
      | None => Err (KeyError k)
      end
  end.

(** [bool(d)]: [None] and the empty dict are falsy. *)
Definition py_truthy (d : pyobj) : bool :=
  match d with
  | PyNoneObj => false
  | PyDict kv => negb (bool_decide (kv = []))
  end.

Fixpoint str_repeat (s : string) (n : nat) : string :=
  match n with
  | O => ""
  | S n' => s +:+ str_repeat s n'
  end.

(** [v * n] for an int literal [n >= 0]: ints multiply, strings repeat. *)
Definition py_mul (v : pyval) (n : Z) : res pyval :=
  match v with
  | PyInt z => Ok (PyInt (z * n))
  | PyStr s => Ok (PyStr (str_repeat s (Z.to_nat n)))
  | PyNone => Err TypeError
  end.

(** ** Configuration ([**kwargs]) *)

Record config := {
  firebase_credentials : string;
  time_out : pyval;
  sleep_time : Z;
  study_name : string;
  study_description : string;
  study_url : string;
  study_completion_time : Z;
  prolific_token : string;
  completion_code : string
}.

(** ** Observable calls to the external clients *)

Inductive study_action := Publish | Start | Pause.

Inductive call :=
| CallSendConditions (ns : string) (conditions : list pyval) (cred : string)
| CallSetupStudy (name description url : string) (completion_time : Z)
    (token : string) (total_available_places : Z) (code : string)
| CallCheckFirebaseStatus (ns : string) (cred : string) (time_out : pyval)
| CallCheckProlificStatus (study_id : pyval) (token : string)
| CallStudyAction (a : study_action) (study_id : pyval) (token : string)
| CallGetObservations (ns : string) (cred : string)
| CallSleep (t : Z).

(** The dict returned by [check_prolific_status]. *)
Record prolific_status := {
  number_of_submissions : Z;
  total_available_places : Z;
  status : string
}.

Inductive outcome (Obs : Type) :=
| Returned (l : list Obs)
| Raised (e : exn)
| Polling.
Arguments Returned {Obs} l.
Arguments Raised {Obs} e.
Arguments Polling {Obs}.

(** ** Observation aggregation: lines 39-41 and 87-89 *)

(** [observation[key]] on the dict returned by [get_observations]. *)
Definition dict_getitem {Obs} (observation : list (string * Obs)) (k : string)
  : res Obs :=
  match assoc_get observation k with
  | Some v => Ok v
  | None => Err (KeyError k)
  end.

Fixpoint res_map {A B} (f : A -> res B) (l : list A) : res (list B) :=
  match l with
  | [] => Ok []
  | x :: l' => let? y := f x in let? ys := res_map f l' in Ok (y :: ys)
  end.

(** [sorted(observation.keys())]: Python compares strings lexicographically
    by code point; [String.le] compares byte by byte. *)
Definition sorted_keys {Obs} (observation : list (string * Obs)) : list string :=
  merge_sort String.le (map fst observation).

(** [[observation[key] for key in sorted(observation.keys())]] *)
Definition observation_list {Obs} (observation : list (string * Obs))
  : res (list Obs) :=
  res_map (dict_getitem observation) (sorted_keys observation).

Definition finish {Obs} (observation : list (string * Obs)) : outcome Obs :=
  match observation_list observation with
  | Ok l => Returned l
  | Err e => Raised e
  end.

(** ** [_firebase_run] *)

Fixpoint firebase_loop {Obs} (cfg : config) (answers : list string)
    (observation : list (string * Obs)) : outcome Obs * list call :=
  match answers with
  | [] => (Polling, [])
  | check_firebase :: answers' =>
      let c := CallCheckFirebaseStatus "autora" (firebase_credentials cfg)
                 (time_out cfg) in
      if String.eqb check_firebase "finished" then
        (finish observation,
         [c; CallGetObservations "autora" (firebase_credentials cfg)])
      else
        let '(o, tr) := firebase_loop cfg answers' observation in
        (o, c :: CallSleep (sleep_time cfg) :: tr)
  end.

Definition firebase_run {Obs} (cfg : config) (conditions : list pyval)
    (answers : list string) (observation : list (string * Obs))
  : outcome Obs * list call :=
  let '(o, tr) := firebase_loop cfg answers observation in
  (o, CallSendConditions "autora" conditions (firebase_credentials cfg) :: tr).

(** ** [_firebase_prolific_run] *)

(** [check_prolific["status"]], where [check_prolific] is a local that is
    unbound until the first recruiter poll. *)
Definition read_status (check_prolific : option prolific_status) : res string :=
  match check_prolific with
  | Some cp => Ok (status cp)
  | None => Err (UnboundLocalError "check_prolific")
  end.

(** Lines 83-86: the completion test. *)
Definition completion (check_firebase : string) (cp : prolific_status) : bool :=
  (total_available_places cp <=? number_of_submissions cp)%Z
  && String.eqb check_firebase "finished".

(** Lines 92-108: the recruiter actions of a tick, in issue order. *)
Definition tick_actions (check_firebase : string)
    (check_prolific : option prolific_status) : res (list study_action) :=
  let? a1 := (if String.eqb check_firebase "available" then
           let? s1 := read_status check_prolific in
           let? s2 := read_status check_prolific in
           Ok ((if String.eqb s1 "UNPUBLISHED" then [Publish] else [])
               ++ (if String.eqb s2 "PAUSED" then [Start] else []))
         else Ok []) in
  let? a2 := (if String.eqb check_firebase "unavailable" then
           let? s := read_status check_prolific in
           Ok (if String.eqb s "STARTED" then [Pause] else [])
         else Ok []) in
  Ok (a1 ++ a2).

(** Lines 75-109.  [prolific_dict] is never reassigned in the loop;
    [check_prolific] is the local carried from tick to tick. *)
Fixpoint firebase_prolific_loop {Obs} (cfg : config) (prolific_dict : pyobj)
    (study_id time_out : pyval) (check_prolific : option prolific_status)
    (answers : list (string * prolific_status))
    (observation : list (string * Obs)) : outcome Obs * list call :=
  match answers with
  | [] => (Polling, [])
  | (check_firebase, answer) :: answers' =>
      let c1 := CallCheckFirebaseStatus "autora" (firebase_credentials cfg)
                  time_out in
      let '(cp, pre, done) :=
        if py_truthy prolific_dict then
          (Some answer,
           [c1; CallCheckProlificStatus study_id (prolific_token cfg)],
           completion check_firebase answer)
        else (check_prolific, [c1], false) in
      if done then
        (finish observation,
         pre ++ [CallGetObservations "autora" (firebase_credentials cfg)])
      else
        match tick_actions check_firebase cp with
        | Err e => (Raised e, pre)
        | Ok acts =>
            let '(o, tr) := firebase_prolific_loop cfg prolific_dict study_id
                              time_out cp answers' observation in
            (o, pre ++ map (fun a => CallStudyAction a study_id (prolific_token cfg)) acts
                    ++ CallSleep (sleep_time cfg) :: tr)
        end
  end.

Definition firebase_prolific_run {Obs} (cfg : config) (conditions : list pyval)
    (prolific_dict : pyobj) (answers : list (string * prolific_status))
    (observation : list (string * Obs)) : outcome Obs * list call :=
  let c0 := CallSendConditions "autora" conditions (firebase_credentials cfg) in
  let c1 := CallSetupStudy (study_name cfg) (study_description cfg)
              (study_url cfg) (study_completion_time cfg) (prolific_token cfg)
              (Z.of_nat (length conditions)) (completion_code cfg) in
  match (let? m := py_getitem prolific_dict "maximum_allowed_time" in py_mul m 60) with
  | Err e => (Raised e, [c0; c1])
  | Ok time_out =>
      match py_getitem prolific_dict "id" with
      | Err e => (Raised e, [c0; c1])
      | Ok study_id =>
          let '(o, tr) := firebase_prolific_loop cfg prolific_dict study_id
                            time_out None answers observation in
          (o, c0 :: c1 :: tr)
      end
  end.

(** ** Observers of a run *)

(** The precedence table of the spec (section 4.1), first match wins. *)
Definition precedence_table (host_status campaign_status : string)
  : list study_action :=
  if String.eqb host_status "available" && String.eqb campaign_status "UNPUBLISHED"
  then [Publish]
  else if String.eqb host_status "available" && String.eqb campaign_status "PAUSED"
  then [Start]
  else if String.eqb host_status "unavailable" && String.eqb campaign_status "STARTED"
  then [Pause]
  else [].

Definition is_poll (c : call) : bool :=
  match c with CallCheckFirebaseStatus _ _ _ => true | _ => false end.

Definition is_fetch (c : call) : bool :=
  match c with CallGetObservations _ _ => true | _ => false end.

Definition is_recruiter_call (c : call) : bool :=
  match c with
  | CallSetupStudy _ _ _ _ _ _ _ | CallCheckProlificStatus _ _
  | CallStudyAction _ _ _ => true
  | _ => false
  end.

Fixpoint count_calls (p : call -> bool) (tr : list call) : nat :=
  match tr with
  | [] => O
  | c :: tr' => (if p c then 1 else 0) + count_calls p tr'
  end.

(** The tick (0-based) on which a run returned, if it did. *)
Definition completion_tick {Obs} (r : outcome Obs * list call) : option nat :=
  match r.1 with
  | Returned _ => Some (pred (count_calls is_poll r.2))
  | _ => None
  end.

Fixpoint first_index {A} (p : A -> bool) (l : list A) : option nat :=
  match l with
  | [] => None
  | x :: l' => if p x then Some O else option_map S (first_index p l')
  end.

(** The namespace argument of the calls to the Firebase client. *)
Definition host_namespace (c : call) : option string :=
  match c with
  | CallSendConditions ns _ _ | CallCheckFirebaseStatus ns _ _
  | CallGetObservations ns _ => Some ns
  | _ => None
  end.

Definition fetched_once_at_end {Obs} (cred : string) (r : outcome Obs * list call)
  : Prop :=
  match r with
  | (Returned _, tr) =>
      exists tr', tr = tr' ++ [CallGetObservations "autora" cred]
                  /\ count_calls is_fetch tr' = 0
  | (_, tr) => count_calls is_fetch tr = 0
  end.

Definition host_ns_ok (c : call) : Prop :=
  match host_namespace c with
  | Some ns => ns = "autora"
  | None => True
  end.

Definition is_sleep (c : call) : bool :=
  match c with CallSleep _ => true | _ => false end.

Definition is_prolific_poll (c : call) : bool :=
  match c with CallCheckProlificStatus _ _ => true | _ => false end.

Definition is_study_action (c : call) : bool :=
  match c with CallStudyAction _ _ _ => true | _ => false end.

Definition is_send (c : call) : bool :=
  match c with CallSendConditions _ _ _ => true | _ => false end.

Definition is_setup (c : call) : bool :=
  match c with CallSetupStudy _ _ _ _ _ _ _ => true | _ => false end.



(** Observations sorted by key, as pairs. *)
Definition key_le {Obs} (p q : string * Obs) : Prop := String.le p.1 q.1.

#[global] Instance key_le_dec {Obs} : RelDecision (@key_le Obs).
Proof. intros p q. unfold key_le. apply _. Defined.

(** ** Sample inputs *)

Definition demo_cfg : config := {|
  firebase_credentials := "cred";
  time_out := PyInt 100;
  sleep_time := 5;
  study_name := "study";
  study_description := "description";
  study_url := "https://example.org";
  study_completion_time := 10;
  prolific_token := "token";
  completion_code := "CODE"
|}.

Definition demo_study : pyobj :=
  PyDict [("id", PyStr "s1"); ("maximum_allowed_time", PyInt 30)].

Definition st (n p : Z) (s : string) : prolific_status :=
  {| number_of_submissions := n; total_available_places := p; status := s |}.

Example firebase_run_two_ticks :
  firebase_run demo_cfg [PyInt 1; PyInt 2] ["available"; "finished"]
    [("A", 10%Z); ("B", 20%Z)] =
  (Returned [10%Z; 20%Z],
   [CallSendConditions "autora" [PyInt 1; PyInt 2] "cred";
    CallCheckFirebaseStatus "autora" "cred" (PyInt 100); CallSleep 5;
    CallCheckFirebaseStatus "autora" "cred" (PyInt 100);
    CallGetObservations "autora" "cred"]).
Proof. reflexivity. Qed.

Example firebase_prolific_run_publish_once :
  firebase_prolific_run demo_cfg [PyInt 1; PyInt 2] demo_study
    [("available", st 0 2 "UNPUBLISHED"); ("available", st 1 2 "STARTED");
     ("finished", st 2 2 "STARTED")] [("c1", 1%Z); ("c2", 2%Z)] =
  (Returned [1%Z; 2%Z],
   [CallSendConditions "autora" [PyInt 1; PyInt 2] "cred";
    CallSetupStudy "study" "description" "https://example.org" 10 "token" 2 "CODE";
    CallCheckFirebaseStatus "autora" "cred" (PyInt 1800);
    CallCheckProlificStatus (PyStr "s1") "token";
    CallStudyAction Publish (PyStr "s1") "token"; CallSleep 5;
    CallCheckFirebaseStatus "autora" "cred" (PyInt 1800);
    CallCheckProlificStatus (PyStr "s1") "token"; CallSleep 5;
    CallCheckFirebaseStatus "autora" "cred" (PyInt 1800);
    CallCheckProlificStatus (PyStr "s1") "token";
    CallGetObservations "autora" "cred"]).
Proof. reflexivity. Qed.

Example observation_list_lexicographic :
  observation_list [("c2", 2%Z); ("c1", 1%Z); ("c10", 10%Z)] = Ok [1%Z; 10%Z; 2%Z].
Proof. reflexivity. Qed.

(** ** The runner factories: lines 112-151 *)

(** [firebase_runner], applied to the keyword arguments [kwargs], returns the closure [runner(x)] that calls
    [_firebase_run] on [x] and [kwargs]. *)
Definition firebase_runner {Obs} (cfg : config)
  : list pyval -> list string -> list (string * Obs) -> outcome Obs * list call :=
  fun x => firebase_run cfg x.

(** [firebase_prolific_runner], applied to [kwargs], returns the closure [run(x)] that
    calls [_firebase_prolific_run] on [x] and [kwargs]. *)
Definition firebase_prolific_runner {Obs} (cfg : config)
  : list pyval -> pyobj -> list (string * prolific_status) -> list (string * Obs)
    -> outcome Obs * list call :=
  fun x => firebase_prolific_run cfg x.

(** * Lemmas *)

(** ** Dict lookup *)

Lemma assoc_get_Some_elem {V} (kv : list (string * V)) k v :
  assoc_get kv k = Some v -> (k, v) ∈ kv.
Proof.
  induction kv as [|[k' v'] kv IH]; simpl; [discriminate|].
  destruct (String.eqb_spec k k') as [->|_]; intros H.
  - injection H as ->. left.
  - right. auto.
Qed.

Lemma assoc_get_None {V} (kv : list (string * V)) k :
  assoc_get kv k = None <-> k ∉ map fst kv.
Proof.
  induction kv as [|[k' v'] kv IH]; simpl.
  - split; [intros _; apply not_elem_of_nil | done].
  - destruct (String.eqb_spec k k') as [->|Hne].
    + split; [discriminate|]. intros H. exfalso. apply H. left.
    + rewrite IH, elem_of_cons. naive_solver.
Qed.

Lemma assoc_get_elem {V} (kv : list (string * V)) k v :
  NoDup (map fst kv) -> (k, v) ∈ kv -> assoc_get kv k = Some v.
Proof.
  induction kv as [|[k' v'] kv IH]; simpl; intros Hnd Hin.
  - by apply not_elem_of_nil in Hin.
  - apply NoDup_cons in Hnd as [Hk' Hnd].
    apply elem_of_cons in Hin as [Heq|Hin].
    + injection Heq as -> ->. by rewrite String.eqb_refl.
    + destruct (String.eqb_spec k k') as [->|_]; [|auto].
      exfalso. apply Hk', list_elem_of_In. change k' with (fst (k', v)).
      apply in_map, list_elem_of_In, Hin.
Qed.

Lemma assoc_get_Permutation {V} (kv1 kv2 : list (string * V)) k :
  NoDup (map fst kv1) -> kv1 ≡ₚ kv2 -> assoc_get kv1 k = assoc_get kv2 k.
Proof.
  intros Hnd Hp.
  assert (NoDup (map fst kv2)) as Hnd2 by (by rewrite <- Hp).
  destruct (assoc_get kv1 k) as [v|] eqn:E.
  - symmetry. apply assoc_get_elem; [done|]. rewrite <- Hp.
    by apply assoc_get_Some_elem.
  - symmetry. apply assoc_get_None. apply assoc_get_None in E.
    by rewrite <- Hp.
Qed.

(** ** Aggregation *)

Lemma merge_sort_string_Sorted (l : list string) :
  Sorted String.le (merge_sort String.le l).
Proof. apply Sorted_merge_sort; apply _. Qed.

Lemma res_map_ext {A B} (f g : A -> res B) (l : list A) :
  (forall x, x ∈ l -> f x = g x) -> res_map f l = res_map g l.
Proof.
  induction l as [|x l IH]; simpl; intros H; [done|].
  rewrite (H x) by left. rewrite IH; [done|].
  intros y Hy. apply H. by right.
Qed.

Lemma sorted_keys_Permutation {Obs} (obs1 obs2 : list (string * Obs)) :
  obs1 ≡ₚ obs2 -> sorted_keys obs1 = sorted_keys obs2.
Proof.
  intros Hp. unfold sorted_keys.
  apply (Sorted_unique String.le); try apply merge_sort_string_Sorted.
  by rewrite !merge_sort_Permutation, Hp.
Qed.

Lemma observation_list_Permutation {Obs} (obs1 obs2 : list (string * Obs)) :
  NoDup (map fst obs1) -> obs1 ≡ₚ obs2 ->
  observation_list obs1 = observation_list obs2.
Proof.
  intros Hnd Hp. unfold observation_list.
  rewrite (sorted_keys_Permutation obs1 obs2 Hp).
  apply res_map_ext. intros k _. unfold dict_getitem.
  by rewrite (assoc_get_Permutation obs1 obs2 k Hnd Hp).
Qed.

Lemma Sorted_map_fst {Obs} (kvs : list (string * Obs)) :
  Sorted key_le kvs -> Sorted String.le (map fst kvs).
Proof.
  induction 1 as [|x l Hs IH Hhd]; simpl; constructor; [done|].
  destruct Hhd; simpl; constructor. done.
Qed.

Lemma res_map_getitem_pairs {Obs} (obs kvs : list (string * Obs)) :
  NoDup (map fst obs) -> (forall p, p ∈ kvs -> p ∈ obs) ->
  res_map (dict_getitem obs) (map fst kvs) = Ok (map snd kvs).
Proof.
  intros Hnd. induction kvs as [|[k v] kvs IH]; simpl; intros Hin; [done|].
  assert (dict_getitem obs k = Ok v) as ->.
  { unfold dict_getitem. rewrite (assoc_get_elem obs k v Hnd); [done|].
    apply Hin. left. }
  simpl. rewrite IH; [done|]. intros p Hp. apply Hin. by right.
Qed.

Lemma observation_list_sorted_pairs {Obs} (obs : list (string * Obs)) :
  NoDup (map fst obs) ->
  observation_list obs = Ok (map snd (merge_sort key_le obs)).
Proof.
  intros Hnd.
  assert (Total (@key_le Obs)) as Htot.
  { intros p q. unfold key_le. apply String.le_total. }
  assert (map fst (merge_sort key_le obs) = sorted_keys obs) as Hk.
  { unfold sorted_keys. apply (Sorted_unique String.le).
    - apply Sorted_map_fst, Sorted_merge_sort. exact Htot.
    - apply merge_sort_string_Sorted.
    - by rewrite merge_sort_Permutation, merge_sort_Permutation. }
  unfold observation_list. rewrite <- Hk.
  apply res_map_getitem_pairs; [done|].
  intros p Hp. by rewrite merge_sort_Permutation in Hp.
Qed.

(** The aggregation never fails: every sorted key is a key of the dict. *)
Lemma observation_list_Ok {Obs} (obs : list (string * Obs)) :
  exists l, observation_list obs = Ok l.
Proof.
  unfold observation_list.
  assert (forall k, k ∈ sorted_keys obs -> k ∈ map fst obs) as Hin.
  { intros k Hk. unfold sorted_keys in Hk. by rewrite merge_sort_Permutation in Hk. }
  induction (sorted_keys obs) as [|k ks IH]; simpl; [eauto|].
  destruct IH as [l Hl].
  { intros k' Hk'. apply Hin. by right. }
  destruct (assoc_get obs k) as [v|] eqn:E.
  - assert (dict_getitem obs k = Ok v) as -> by (unfold dict_getitem; by rewrite E).
    simpl. rewrite Hl. eauto.
  - exfalso. apply assoc_get_None in E. apply E, Hin. left.
Qed.

Lemma finish_Returned {Obs} (obs : list (string * Obs)) :
  exists l, finish obs = Returned l /\ observation_list obs = Ok l.
Proof.
  unfold finish. destruct (observation_list_Ok obs) as [l ->]. eauto.
Qed.

(** ** One tick of the combined loop *)

Lemma tick_actions_table (h : string) (r : prolific_status) :
  tick_actions h (Some r) = Ok (precedence_table h (status r)).
Proof.
  destruct r as [n p s]. unfold tick_actions, precedence_table. simpl.
  destruct (String.eqb h "available") eqn:Ha, (String.eqb s "UNPUBLISHED") eqn:Hu,
    (String.eqb s "PAUSED") eqn:Hp, (String.eqb h "unavailable") eqn:Hn,
    (String.eqb s "STARTED") eqn:Hs; simpl; try done;
  repeat match goal with
         | H : String.eqb _ _ = true |- _ => apply String.eqb_eq in H; subst
         end; simpl in *; discriminate.
Qed.

Lemma precedence_table_at_most_one (h s : string) :
  length (precedence_table h s) <= 1.
Proof.
  unfold precedence_table.
  repeat match goal with |- context [if ?b then _ else _] => destruct b end;
  simpl; lia.
Qed.

Lemma firebase_prolific_loop_tick {Obs} cfg pd sid tout cp h r answers
    (observation : list (string * Obs)) :
  py_truthy pd = true ->
  firebase_prolific_loop cfg pd sid tout cp ((h, r) :: answers) observation =
  if completion h r then
    (finish observation,
     [CallCheckFirebaseStatus "autora" (firebase_credentials cfg) tout;
      CallCheckProlificStatus sid (prolific_token cfg);
      CallGetObservations "autora" (firebase_credentials cfg)])
  else
    let '(o, tr) := firebase_prolific_loop cfg pd sid tout (Some r) answers
                      observation in
    (o, [CallCheckFirebaseStatus "autora" (firebase_credentials cfg) tout;
         CallCheckProlificStatus sid (prolific_token cfg)]
        ++ map (fun a => CallStudyAction a sid (prolific_token cfg))
               (precedence_table h (status r))
        ++ CallSleep (sleep_time cfg) :: tr).
Proof.
  intros Ht. simpl. rewrite Ht.
  destruct (completion h r); [done|].
  by rewrite tick_actions_table.
Qed.

(** Entering the loop: the lookups before it succeed exactly on a dict
    holding both keys, and such a dict is truthy. *)
Lemma py_getitem_Ok_truthy (pd : pyobj) k v :
  py_getitem pd k = Ok v -> py_truthy pd = true.
Proof.
  destruct pd as [|kv]; simpl; [discriminate|].
  destruct kv as [|p kv]; simpl; [discriminate|]. done.
Qed.

(** ** Whole loops *)

Lemma count_calls_app p (tr1 tr2 : list call) :
  count_calls p (tr1 ++ tr2) = count_calls p tr1 + count_calls p tr2.
Proof. induction tr1 as [|c tr1 IH]; simpl; [done|]. rewrite IH. lia. Qed.

Lemma count_calls_actions p acts sid tok :
  (forall a, p (CallStudyAction a sid tok) = false) ->
  count_calls p (map (fun a => CallStudyAction a sid tok) acts) = 0.
Proof. intros Hp. induction acts as [|a acts IH]; simpl; [done|]. by rewrite Hp, IH. Qed.

Lemma firebase_loop_completion {Obs} cfg answers (observation : list (string * Obs)) :
  match firebase_loop cfg answers observation with
  | (Returned l, tr) =>
      observation_list observation = Ok l /\
      exists n, count_calls is_poll tr = S n /\
                first_index (fun h => String.eqb h "finished") answers = Some n
  | (Polling, _) => first_index (fun h => String.eqb h "finished") answers = None
  | (Raised _, _) => False
  end.
Proof.
  induction answers as [|h answers IH]; simpl; [done|].
  destruct (String.eqb h "finished").
  - destruct (finish_Returned observation) as (l & -> & Hl). eauto.
  - destruct (firebase_loop cfg answers observation) as [[l| |] tr].
    + destruct IH as [Hl (n & Hn & ->)]. simpl. split; [done|].
      exists (S n). by rewrite Hn.
    + done.
    + by rewrite IH.
Qed.

Lemma firebase_loop_Forall {Obs} (P : call -> Prop) cfg answers
    (observation : list (string * Obs)) :
  P (CallCheckFirebaseStatus "autora" (firebase_credentials cfg) (time_out cfg)) ->
  P (CallGetObservations "autora" (firebase_credentials cfg)) ->
  P (CallSleep (sleep_time cfg)) ->
  Forall P (firebase_loop cfg answers observation).2.
Proof.
  intros Hc Hg Hs. induction answers as [|h answers IH]; simpl; [constructor|].
  destruct (String.eqb h "finished"); [by repeat constructor|].
  destruct (firebase_loop cfg answers observation) as [o tr]. simpl in *.
  by repeat constructor.
Qed.

Lemma firebase_loop_fetch {Obs} cfg answers (observation : list (string * Obs)) :
  match firebase_loop cfg answers observation with
  | (Returned l, tr) =>
      observation_list observation = Ok l /\
      exists tr', tr = tr' ++ [CallGetObservations "autora" (firebase_credentials cfg)]
                  /\ count_calls is_fetch tr' = 0
  | (_, tr) => count_calls is_fetch tr = 0
  end.
Proof.
  induction answers as [|h answers IH]; simpl; [done|].
  destruct (String.eqb h "finished").
  - destruct (finish_Returned observation) as (l & -> & Hl). split; [done|].
    exists [CallCheckFirebaseStatus "autora" (firebase_credentials cfg) (time_out cfg)].
    done.
  - destruct (firebase_loop cfg answers observation) as [[l| |] tr].
    + destruct IH as (Hl & tr' & -> & Htr'). split; [done|].
      exists (CallCheckFirebaseStatus "autora" (firebase_credentials cfg) (time_out cfg)
              :: CallSleep (sleep_time cfg) :: tr'). done.
    + done.
    + done.
Qed.

Lemma firebase_prolific_loop_completion {Obs} cfg pd sid tout answers
    (observation : list (string * Obs)) :
  py_truthy pd = true ->
  forall cp,
  match firebase_prolific_loop cfg pd sid tout cp answers observation with
  | (Returned l, tr) =>
      observation_list observation = Ok l /\
      exists n, count_calls is_poll tr = S n /\
                first_index (fun hr => completion hr.1 hr.2) answers = Some n
  | (Polling, _) => first_index (fun hr => completion hr.1 hr.2) answers = None
  | (Raised _, _) => False
  end.
Proof.
  intros Ht. induction answers as [|[h r] answers IH]; intros cp; [done|].
  rewrite firebase_prolific_loop_tick by done. simpl.
  destruct (completion h r).
  - destruct (finish_Returned observation) as (l & -> & Hl). eauto.
  - specialize (IH (Some r)).
    destruct (firebase_prolific_loop cfg pd sid tout (Some r) answers observation)
      as [[l| |] tr].
    + destruct IH as [Hl (n & Hn & ->)]. split; [done|].
      exists (S n). simpl. rewrite count_calls_app, count_calls_actions by done.
      simpl. by rewrite Hn.
    + done.
    + by rewrite IH.
Qed.

Ltac forall_calls :=
  simpl; repeat match goal with
         | |- Forall _ [] => constructor
         | |- Forall _ (_ :: _) => constructor
         | |- Forall _ (_ ++ _) => apply Forall_app; split
         | |- Forall _ (map _ _) =>
             let c := fresh "c" in let Hc := fresh "Hc" in
             apply Forall_forall; intros c Hc;
             apply list_elem_of_In, in_map_iff in Hc;
             destruct Hc as (? & <- & _)
         end; auto.

Lemma firebase_prolific_loop_Forall {Obs} (P : call -> Prop) cfg pd sid tout
    answers (observation : list (string * Obs)) :
  P (CallCheckFirebaseStatus "autora" (firebase_credentials cfg) tout) ->
  P (CallCheckProlificStatus sid (prolific_token cfg)) ->
  (forall a, P (CallStudyAction a sid (prolific_token cfg))) ->
  P (CallGetObservations "autora" (firebase_credentials cfg)) ->
  P (CallSleep (sleep_time cfg)) ->
  forall cp, Forall P (firebase_prolific_loop cfg pd sid tout cp answers observation).2.
Proof.
  intros Hc Hp Ha Hg Hs.
  induction answers as [|[h r] answers IH]; intros cp; simpl; [constructor|].
  destruct (py_truthy pd); simpl.
  - destruct (completion h r); [forall_calls|].
    destruct (tick_actions h (Some r)) as [acts|e]; [|forall_calls].
    specialize (IH (Some r)).
    destruct (firebase_prolific_loop cfg pd sid tout (Some r) answers observation)
      as [o tr]. simpl in *. forall_calls.
  - destruct (tick_actions h cp) as [acts|e]; [|forall_calls].
    specialize (IH cp).
    destruct (firebase_prolific_loop cfg pd sid tout cp answers observation)
      as [o tr]. simpl in *. forall_calls.
Qed.

Lemma firebase_prolific_loop_fetch {Obs} cfg pd sid tout answers
    (observation : list (string * Obs)) :
  forall cp,
  match firebase_prolific_loop cfg pd sid tout cp answers observation with
  | (Returned l, tr) =>
      observation_list observation = Ok l /\
      exists tr', tr = tr' ++ [CallGetObservations "autora" (firebase_credentials cfg)]
                  /\ count_calls is_fetch tr' = 0
  | (_, tr) => count_calls is_fetch tr = 0
  end.
Proof.
  induction answers as [|[h r] answers IH]; intros cp; simpl; [done|].
  assert (forall cp' pre acts,
            count_calls is_fetch pre = 0 ->
            match (let '(o, tr) := firebase_prolific_loop cfg pd sid tout cp' answers
                                     observation in
                   (o, pre ++ map (fun a => CallStudyAction a sid (prolific_token cfg)) acts
                           ++ CallSleep (sleep_time cfg) :: tr)) with
            | (Returned l, tr) =>
                observation_list observation = Ok l /\
                exists tr', tr = tr' ++ [CallGetObservations "autora" (firebase_credentials cfg)]
                            /\ count_calls is_fetch tr' = 0
            | (_, tr) => count_calls is_fetch tr = 0
            end) as Hstep.
  { intros cp' pre acts Hpre. specialize (IH cp').
    destruct (firebase_prolific_loop cfg pd sid tout cp' answers observation)
      as [[l| |] tr].
    - destruct IH as (Hl & tr' & -> & Htr'). split; [done|].
      exists (pre ++ map (fun a => CallStudyAction a sid (prolific_token cfg)) acts
                  ++ CallSleep (sleep_time cfg) :: tr').
      split; [by rewrite <- !app_assoc|].
      rewrite !count_calls_app, count_calls_actions by done. simpl. lia.
    - rewrite !count_calls_app, count_calls_actions by done. simpl. lia.
    - rewrite !count_calls_app, count_calls_actions by done. simpl. lia. }
  destruct (py_truthy pd).
  - destruct (completion h r).
    + destruct (finish_Returned observation) as (l & -> & Hl). split; [done|].
      exists [CallCheckFirebaseStatus "autora" (firebase_credentials cfg) tout;
              CallCheckProlificStatus sid (prolific_token cfg)]. done.
    + destruct (tick_actions h (Some r)) as [acts|e]; [|done].
      by apply Hstep.
  - destruct (tick_actions h cp) as [acts|e]; [|done].
    by apply Hstep.
Qed.

(** * The claims *)

(** ** C1: the recruiter action of a tick follows the precedence table *)

(** C1.  On a tick of the combined loop on which completion does not hold,
    with [h] the Firebase status and [r] the Prolific answer read in that
    tick, the tick issues the two status polls, then exactly the actions of
    the spec's precedence table for [(h, status r)] (publish on
    (available, UNPUBLISHED), start on (available, PAUSED), pause on
    (unavailable, STARTED), nothing otherwise), then sleeps; the table never
    has more than one action. *)
Theorem reconcile_tick_matches_table {Obs} cfg pd sid tout cp h r answers
    (observation : list (string * Obs)) :
  py_truthy pd = true ->
  completion h r = false ->
  (let '(o, tr) := firebase_prolific_loop cfg pd sid tout (Some r) answers
                     observation in
   firebase_prolific_loop cfg pd sid tout cp ((h, r) :: answers) observation =
   (o, [CallCheckFirebaseStatus "autora" (firebase_credentials cfg) tout;
        CallCheckProlificStatus sid (prolific_token cfg)]
       ++ map (fun a => CallStudyAction a sid (prolific_token cfg))
              (precedence_table h (status r))
       ++ CallSleep (sleep_time cfg) :: tr)) /\
  length (precedence_table h (status r)) <= 1.
Proof.
  intros Ht Hc. split; [|apply precedence_table_at_most_one].
  rewrite firebase_prolific_loop_tick by done. rewrite Hc.
  by destruct (firebase_prolific_loop cfg pd sid tout (Some r) answers observation).
Qed.

Lemma reconcile_tick_matches_table_witness :
  py_truthy demo_study = true /\
  completion "available" (st 0 2 "UNPUBLISHED") = false /\
  firebase_prolific_loop demo_cfg demo_study (PyStr "s1") (PyInt 1800) None
    [("available", st 0 2 "UNPUBLISHED")] ([] : list (string * Z)) =
  (Polling, [CallCheckFirebaseStatus "autora" "cred" (PyInt 1800);
             CallCheckProlificStatus (PyStr "s1") "token";
             CallStudyAction Publish (PyStr "s1") "token"; CallSleep 5]).
Proof.
  split; [reflexivity|]. split; [reflexivity|].
  destruct (reconcile_tick_matches_table demo_cfg demo_study (PyStr "s1")
              (PyInt 1800) None "available" (st 0 2 "UNPUBLISHED") []
              ([] : list (string * Z)) eq_refl eq_refl) as [H _].
  exact H.
Defined.

(** ** C2: completion needs both conditions in the same tick *)

(** C2.  Once the campaign is set up (the two lookups on the answer of
    [setup_study] succeed), the combined run returns, on tick [n], exactly when
    tick [n] is the first whose snapshot has both
    [number_of_submissions >= total_available_places] and Firebase status
    ["finished"]; what it returns is the aggregated observation list. *)
Theorem completion_same_snapshot {Obs} cfg conditions pd answers
    (observation : list (string * Obs)) m t sid :
  py_getitem pd "maximum_allowed_time" = Ok m ->
  py_mul m 60 = Ok t ->
  py_getitem pd "id" = Ok sid ->
  completion_tick (firebase_prolific_run cfg conditions pd answers observation) =
    first_index (fun hr => completion hr.1 hr.2) answers /\
  (forall l, (firebase_prolific_run cfg conditions pd answers observation).1
             = Returned l -> observation_list observation = Ok l) /\
  (forall h r, completion h r = true <->
     (total_available_places r <= number_of_submissions r)%Z /\ h = "finished").
Proof.
  intros Hm Ht Hid. split; [|split].
  - unfold firebase_prolific_run. rewrite Hm. simpl. rewrite Ht, Hid.
    pose proof (firebase_prolific_loop_completion cfg pd sid t answers observation
                  (py_getitem_Ok_truthy _ _ _ Hid) None) as H.
    destruct (firebase_prolific_loop cfg pd sid t None answers observation)
      as [[l| |] tr]; unfold completion_tick; simpl.
    + destruct H as [_ (n & -> & ->)]. done.
    + done.
    + by rewrite H.
  - intros l. unfold firebase_prolific_run. rewrite Hm. simpl. rewrite Ht, Hid.
    pose proof (firebase_prolific_loop_completion cfg pd sid t answers observation
                  (py_getitem_Ok_truthy _ _ _ Hid) None) as H.
    destruct (firebase_prolific_loop cfg pd sid t None answers observation)
      as [[l'| |] tr]; simpl; intros E; try discriminate.
    injection E as <-. apply H.
  - intros h r. unfold completion.
    rewrite andb_true_iff, Z.leb_le, String.eqb_eq. done.
Qed.

Lemma completion_same_snapshot_witness :
  completion_tick (firebase_prolific_run demo_cfg [PyInt 1; PyInt 2] demo_study
    [("finished", st 1 2 "STARTED"); ("available", st 2 2 "STARTED");
     ("finished", st 2 2 "STARTED")] [("c1", 1%Z); ("c2", 2%Z)]) = Some 2.
Proof.
  destruct (completion_same_snapshot demo_cfg [PyInt 1; PyInt 2] demo_study
              [("finished", st 1 2 "STARTED"); ("available", st 2 2 "STARTED");
               ("finished", st 2 2 "STARTED")] [("c1", 1%Z); ("c2", 2%Z)]
              (PyInt 30) (PyInt 1800) (PyStr "s1") eq_refl eq_refl eq_refl)
    as [H _].
  rewrite H. reflexivity.
Defined.

(** ** C3: observations in lexicographic key order *)

(** C3.  For an observation dict (distinct keys), the aggregated list is the
    list of its values taken in lexicographic order of their keys; it is the
    same for every insertion order of the dict, and on
    [{"c2": O2, "c1": O1, "c10": O10}] it is [[O1; O10; O2]].  The
    aggregation is a function of the dict, so two applications to an
    unchanged dict agree. *)
Theorem observation_list_key_order {Obs} (obs1 obs2 : list (string * Obs)) :
  NoDup (map fst obs1) ->
  obs1 ≡ₚ obs2 ->
  (exists kvs, kvs ≡ₚ obs1 /\ Sorted key_le kvs /\
               observation_list obs1 = Ok (map snd kvs)) /\
  observation_list obs1 = observation_list obs2 /\
  (forall o1 o2 o10 : Obs,
     observation_list [("c2", o2); ("c1", o1); ("c10", o10)] = Ok [o1; o10; o2]).
Proof.
  intros Hnd Hp. split; [|split].
  - exists (merge_sort key_le obs1). split; [apply merge_sort_Permutation|].
    split; [|by apply observation_list_sorted_pairs].
    apply Sorted_merge_sort. intros p q. unfold key_le. apply String.le_total.
  - by apply observation_list_Permutation.
  - intros. reflexivity.
Qed.

Lemma observation_list_key_order_witness :
  observation_list [("c2", 2%Z); ("c1", 1%Z); ("c10", 10%Z)] =
  observation_list [("c10", 10%Z); ("c2", 2%Z); ("c1", 1%Z)].
Proof.
  destruct (observation_list_key_order [("c2", 2%Z); ("c1", 1%Z); ("c10", 10%Z)]
              [("c10", 10%Z); ("c2", 2%Z); ("c1", 1%Z)]) as [_ [H _]].
  - apply NoDup_ListNoDup. vm_compute. repeat constructor; simpl; intuition discriminate.
  - apply Permutation_count_occ with (eq_dec := decide_rel (=)). intros x.
    simpl. repeat case_decide; simplify_eq; lia.
  - exact H.
Defined.

(** ** C4: the host-only run *)

(** C4.  The host-only run returns on the first poll that reads ["finished"]
    (and never before), returns the key-sorted observation list, and issues
    no call to the recruitment platform at all. *)
Theorem firebase_run_host_only {Obs} cfg conditions answers
    (observation : list (string * Obs)) :
  completion_tick (firebase_run cfg conditions answers observation) =
    first_index (fun h => String.eqb h "finished") answers /\
  (forall l, (firebase_run cfg conditions answers observation).1 = Returned l ->
             observation_list observation = Ok l) /\
  Forall (fun c => is_recruiter_call c = false)
    (firebase_run cfg conditions answers observation).2.
Proof.
  pose proof (firebase_loop_completion cfg answers observation) as H.
  unfold firebase_run. split; [|split].
  - destruct (firebase_loop cfg answers observation) as [[l| |] tr];
      unfold completion_tick; simpl.
    + destruct H as [_ (n & -> & ->)]. done.
    + done.
    + by rewrite H.
  - destruct (firebase_loop cfg answers observation) as [[l'| |] tr];
      simpl; intros l E; try discriminate.
    injection E as <-. apply H.
  - pose proof (firebase_loop_Forall (fun c => is_recruiter_call c = false)
                  cfg answers observation eq_refl eq_refl eq_refl) as HF.
    destruct (firebase_loop cfg answers observation) as [o tr].
    simpl in *. by constructor.
Qed.

(** ** C5: campaign size and host time-out *)

(** C5.  The combined run calls [setup_study] (its second call) with
    [total_available_places = len(conditions)], and every Firebase status poll
    of the run passes [maximum_allowed_time * 60] as time-out, computed from
    the answer of [setup_study]. *)
Theorem campaign_size_and_time_out {Obs} cfg conditions pd answers
    (observation : list (string * Obs)) :
  (firebase_prolific_run cfg conditions pd answers observation).2 !! 1 =
    Some (CallSetupStudy (study_name cfg) (study_description cfg) (study_url cfg)
            (study_completion_time cfg) (prolific_token cfg)
            (Z.of_nat (length conditions)) (completion_code cfg)) /\
  Forall (fun c => match c with
                   | CallCheckFirebaseStatus _ _ t =>
                       exists m, py_getitem pd "maximum_allowed_time" = Ok m /\
                                 py_mul m 60 = Ok t
                   | _ => True
                   end)
    (firebase_prolific_run cfg conditions pd answers observation).2.
Proof.
  unfold firebase_prolific_run.
  destruct (py_getitem pd "maximum_allowed_time") as [m|e] eqn:Hm; simpl;
    [|by repeat constructor].
  destruct (py_mul m 60) as [t|e] eqn:Ht; simpl; [|by repeat constructor].
  destruct (py_getitem pd "id") as [sid|e]; [|by repeat constructor].
  pose proof (firebase_prolific_loop_Forall
                (fun c => match c with
                          | CallCheckFirebaseStatus _ _ t' =>
                              exists m', Ok m = Ok m' /\ py_mul m' 60 = Ok t'
                          | _ => True
                          end) cfg pd sid t answers observation) as HF.
  destruct (firebase_prolific_loop cfg pd sid t None answers observation)
    as [o tr] eqn:E. simpl. split; [done|].
  constructor; [done|]. constructor; [done|].
  specialize (HF (ex_intro _ m (conj eq_refl Ht)) I (fun _ => I) I I None). rewrite E in HF. exact HF.
Qed.

(** ** C6: the action is a function of the tick's snapshot *)

(** C6.  Any two ticks of combined loops (of the same run or of two runs, with
    any earlier history, i.e. any value the [check_prolific] local holds from
    before) that read the same Firebase status and the same Prolific campaign
    status, and do not complete, issue the same recruiter actions. *)
Theorem action_depends_on_snapshot_only {Obs} cfg1 cfg2 pd1 pd2 sid1 sid2
    tout1 tout2 cp1 cp2 h r1 r2 answers1 answers2
    (obs1 obs2 : list (string * Obs)) :
  py_truthy pd1 = true -> py_truthy pd2 = true ->
  completion h r1 = false -> completion h r2 = false ->
  status r1 = status r2 ->
  exists acts,
    (let '(o, tr) := firebase_prolific_loop cfg1 pd1 sid1 tout1 (Some r1)
                       answers1 obs1 in
     firebase_prolific_loop cfg1 pd1 sid1 tout1 cp1 ((h, r1) :: answers1) obs1 =
     (o, [CallCheckFirebaseStatus "autora" (firebase_credentials cfg1) tout1;
          CallCheckProlificStatus sid1 (prolific_token cfg1)]
         ++ map (fun a => CallStudyAction a sid1 (prolific_token cfg1)) acts
         ++ CallSleep (sleep_time cfg1) :: tr)) /\
    (let '(o, tr) := firebase_prolific_loop cfg2 pd2 sid2 tout2 (Some r2)
                       answers2 obs2 in
     firebase_prolific_loop cfg2 pd2 sid2 tout2 cp2 ((h, r2) :: answers2) obs2 =
     (o, [CallCheckFirebaseStatus "autora" (firebase_credentials cfg2) tout2;
          CallCheckProlificStatus sid2 (prolific_token cfg2)]
         ++ map (fun a => CallStudyAction a sid2 (prolific_token cfg2)) acts
         ++ CallSleep (sleep_time cfg2) :: tr)).
Proof.
  intros Ht1 Ht2 Hc1 Hc2 Hs.
  exists (precedence_table h (status r1)). split.
  - rewrite firebase_prolific_loop_tick, Hc1 by done.
    by destruct (firebase_prolific_loop cfg1 pd1 sid1 tout1 (Some r1) answers1 obs1).
  - rewrite firebase_prolific_loop_tick, Hc2, <- Hs by done.
    by destruct (firebase_prolific_loop cfg2 pd2 sid2 tout2 (Some r2) answers2 obs2).
Qed.

Lemma action_depends_on_snapshot_only_witness :
  exists acts,
    firebase_prolific_loop demo_cfg demo_study (PyStr "s1") (PyInt 1800) None
      [("unavailable", st 0 2 "STARTED")] ([] : list (string * Z)) =
    (Polling, [CallCheckFirebaseStatus "autora" "cred" (PyInt 1800);
               CallCheckProlificStatus (PyStr "s1") "token"]
              ++ map (fun a => CallStudyAction a (PyStr "s1") "token") acts
              ++ [CallSleep 5]) /\
    firebase_prolific_loop demo_cfg demo_study (PyStr "s1") (PyInt 1800)
      (Some (st 1 2 "PAUSED"))
      [("unavailable", st 1 2 "STARTED"); ("finished", st 2 2 "STARTED")]
      ([] : list (string * Z)) =
    (Returned [], [CallCheckFirebaseStatus "autora" "cred" (PyInt 1800);
               CallCheckProlificStatus (PyStr "s1") "token"]
              ++ map (fun a => CallStudyAction a (PyStr "s1") "token") acts
              ++ [CallSleep 5; CallCheckFirebaseStatus "autora" "cred" (PyInt 1800);
                  CallCheckProlificStatus (PyStr "s1") "token";
                  CallGetObservations "autora" "cred"]).
Proof.
  destruct (action_depends_on_snapshot_only demo_cfg demo_cfg demo_study demo_study
              (PyStr "s1") (PyStr "s1") (PyInt 1800) (PyInt 1800)
              None (Some (st 1 2 "PAUSED")) "unavailable"
              (st 0 2 "STARTED") (st 1 2 "STARTED")
              [] [("finished", st 2 2 "STARTED")]
              ([] : list (string * Z)) [] eq_refl eq_refl eq_refl eq_refl eq_refl)
    as [acts [H1 H2]].
  exists acts. simpl in *. split; [exact H1 | exact H2].
Defined.

(** ** C7: one fetch, at completion *)

(** C7.  In every run of either runner, [get_observations] is called once
    when the run returns, as its very last call, and never earlier; a run
    that has not returned has not called it. *)
Theorem fetch_once_on_completion {Obs} cfg conditions pd answers answers'
    (observation : list (string * Obs)) :
  fetched_once_at_end (firebase_credentials cfg)
    (firebase_run cfg conditions answers observation) /\
  fetched_once_at_end (firebase_credentials cfg)
    (firebase_prolific_run cfg conditions pd answers' observation).
Proof.
  split.
  - pose proof (firebase_loop_fetch cfg answers observation) as H.
    unfold firebase_run, fetched_once_at_end.
    destruct (firebase_loop cfg answers observation) as [[l| |] tr].
    + destruct H as (_ & tr' & -> & Htr').
      exists (CallSendConditions "autora" conditions (firebase_credentials cfg) :: tr').
      done.
    + done.
    + done.
  - unfold firebase_prolific_run, fetched_once_at_end.
    destruct (let? m := py_getitem pd "maximum_allowed_time" in py_mul m 60)
      as [t|e]; [|done].
    destruct (py_getitem pd "id") as [sid|e]; [|done].
    pose proof (firebase_prolific_loop_fetch cfg pd sid t answers' observation None) as H.
    destruct (firebase_prolific_loop cfg pd sid t None answers' observation)
      as [[l| |] tr].
    + destruct H as (_ & tr' & -> & Htr').
      eexists (_ :: _ :: tr'). done.
    + done.
    + done.
Qed.

(** ** C8: no check of the observation count *)

(** C8, counterexample.  Two conditions are submitted, the host reports
    ["finished"] and the fetched dict has a single entry: the host-only run
    returns that one observation, it raises nothing. *)
Lemma observation_count_not_checked :
  (firebase_run demo_cfg [PyInt 1; PyInt 2] ["finished"] [("c1", 7%Z)]).1
  = Returned [7%Z].
Proof. reflexivity. Qed.

(** C8, as the code does it.  The outcome of a run does not depend on the
    submitted conditions (whatever their number), and a returned list is the
    aggregation of the fetched dict, whatever its size: no comparison of the
    two counts is made and no error is raised for a mismatch. *)
Theorem observation_count_ignored {Obs} cfg conditions1 conditions2 pd answers
    answers' (observation : list (string * Obs)) :
  (firebase_run cfg conditions1 answers observation).1 =
    (firebase_run cfg conditions2 answers observation).1 /\
  (firebase_prolific_run cfg conditions1 pd answers' observation).1 =
    (firebase_prolific_run cfg conditions2 pd answers' observation).1 /\
  (forall l, (firebase_run cfg conditions1 answers observation).1 = Returned l ->
             observation_list observation = Ok l) /\
  (forall l, (firebase_prolific_run cfg conditions1 pd answers' observation).1
             = Returned l -> observation_list observation = Ok l).
Proof.
  split; [|split; [|split]].
  - unfold firebase_run.
    by destruct (firebase_loop cfg answers observation).
  - unfold firebase_prolific_run.
    destruct (let? m := py_getitem pd "maximum_allowed_time" in py_mul m 60)
      as [t|e]; [|done].
    destruct (py_getitem pd "id") as [sid|e]; [|done].
    by destruct (firebase_prolific_loop cfg pd sid t None answers' observation).
  - pose proof (firebase_loop_fetch cfg answers observation) as H.
    unfold firebase_run.
    destruct (firebase_loop cfg answers observation) as [[l'| |] tr];
      simpl; intros l E; try discriminate.
    injection E as <-. apply H.
  - unfold firebase_prolific_run.
    destruct (let? m := py_getitem pd "maximum_allowed_time" in py_mul m 60)
      as [t|e]; [|discriminate].
    destruct (py_getitem pd "id") as [sid|e]; [|discriminate].
    pose proof (firebase_prolific_loop_fetch cfg pd sid t answers' observation None) as H.
    destruct (firebase_prolific_loop cfg pd sid t None answers' observation)
      as [[l'| |] tr]; simpl; intros l E; try discriminate.
    injection E as <-. apply H.
Qed.

(** ** C9: [check_prolific] is bound before it is read *)

(** C9.  A combined run that polls Firebase at all has a truthy
    [prolific_dict] (a falsy answer of [setup_study] fails at the
    [maximum_allowed_time] lookup first), and the run never raises the
    [UnboundLocalError] of [check_prolific]: it raises only before its first
    poll. *)
Theorem check_prolific_bound_before_use {Obs} cfg conditions pd answers
    (observation : list (string * Obs)) :
  (Exists (fun c => is_poll c = true)
     (firebase_prolific_run cfg conditions pd answers observation).2 ->
   py_truthy pd = true) /\
  (forall e, (firebase_prolific_run cfg conditions pd answers observation).1 = Raised e ->
     count_calls is_poll (firebase_prolific_run cfg conditions pd answers observation).2 = 0) /\
  (firebase_prolific_run cfg conditions pd answers observation).1
    <> Raised (UnboundLocalError "check_prolific").
Proof.
  unfold firebase_prolific_run.
  destruct (py_getitem pd "maximum_allowed_time") as [m|e0] eqn:Hm; simpl.
  2:{ split; [intros (c & Hin & Hc)%List.Exists_exists;
             destruct Hin as [<-|[<-|[]]]; discriminate|].
      split; [done|]. intros E. injection E as E. subst.
      destruct pd; simpl in Hm; [discriminate|].
      destruct (assoc_get kv "maximum_allowed_time"); discriminate. }
  destruct (py_mul m 60) as [t|e1] eqn:Hmul; simpl.
  2:{ split; [intros (c & Hin & Hc)%List.Exists_exists;
             destruct Hin as [<-|[<-|[]]]; discriminate|].
      split; [done|]. intros E. injection E as ->.
      destruct m; simpl in Hmul; discriminate. }
  destruct (py_getitem pd "id") as [sid|e2] eqn:Hid.
  2:{ split; [intros (c & Hin & Hc)%List.Exists_exists;
             destruct Hin as [<-|[<-|[]]]; discriminate|].
      split; [done|]. intros E. injection E as ->.
      destruct pd; simpl in Hid; [discriminate|].
      destruct (assoc_get kv "id"); discriminate. }
  pose proof (py_getitem_Ok_truthy _ _ _ Hid) as Ht.
  pose proof (firebase_prolific_loop_completion cfg pd sid t answers observation Ht None)
    as H.
  destruct (firebase_prolific_loop cfg pd sid t None answers observation)
    as [[l| |] tr]; simpl.
  - split; [done|]. split; [intros ? E; discriminate|discriminate].
  - destruct H.
  - split; [done|]. split; [intros ? E; discriminate|discriminate].
Qed.

(** ** C10: the Firebase namespace is fixed *)

(** C10.  Every call to the Firebase client ([send_conditions],
    [check_firebase_status], [get_observations]) of either runner passes the
    namespace ["autora"], whatever the configuration. *)
Theorem host_namespace_autora {Obs} cfg conditions pd answers answers'
    (observation : list (string * Obs)) :
  Forall host_ns_ok (firebase_run cfg conditions answers observation).2 /\
  Forall host_ns_ok (firebase_prolific_run cfg conditions pd answers' observation).2.
Proof.
  split.
  - pose proof (firebase_loop_Forall host_ns_ok cfg answers observation
                  eq_refl eq_refl I) as H.
    unfold firebase_run.
    destruct (firebase_loop cfg answers observation) as [o tr].
    simpl in *. by constructor.
  - unfold firebase_prolific_run.
    destruct (let? m := py_getitem pd "maximum_allowed_time" in py_mul m 60)
      as [t|e]; [|repeat constructor].
    destruct (py_getitem pd "id") as [sid|e]; [|repeat constructor].
    pose proof (firebase_prolific_loop_Forall host_ns_ok cfg pd sid t answers'
                  observation eq_refl I (fun _ => I) eq_refl I None) as H.
    destruct (firebase_prolific_loop cfg pd sid t None answers' observation)
      as [o tr].
    simpl in *. by repeat constructor.
Qed.

(** * Further properties of the runners *)

(** ** Counting lemmas over the loops *)

Lemma count_calls_Forall_false p (tr : list call) :
  Forall (fun c => p c = false) tr -> count_calls p tr = 0.
Proof. induction 1 as [|c tr Hc _ IH]; simpl; [done|]. by rewrite Hc, IH. Qed.

Lemma count_calls_study_actions acts sid tok :
  count_calls is_study_action (map (fun a => CallStudyAction a sid tok) acts)
  = length acts.
Proof. induction acts as [|a acts IH]; simpl; [done|]. by rewrite IH. Qed.


Lemma firebase_prolific_loop_counts {Obs} cfg pd sid tout answers
    (observation : list (string * Obs)) :
  py_truthy pd = true ->
  forall cp,
  let '(o, tr) := firebase_prolific_loop cfg pd sid tout cp answers observation in
  count_calls is_prolific_poll tr = count_calls is_poll tr /\
  count_calls is_study_action tr <= count_calls is_poll tr /\
  match o with
  | Returned _ => S (count_calls is_sleep tr) = count_calls is_poll tr
  | _ => count_calls is_sleep tr = count_calls is_poll tr
  end.
Proof.
  intros Ht. induction answers as [|[h r] answers IH]; intros cp; [simpl; lia|].
  rewrite firebase_prolific_loop_tick by done.
  destruct (completion h r).
  - destruct (finish_Returned observation) as (l & -> & _). simpl. lia.
  - specialize (IH (Some r)).
    destruct (firebase_prolific_loop cfg pd sid tout (Some r) answers observation)
      as [o tr].
    pose proof (precedence_table_at_most_one h (status r)) as Hle.
    destruct IH as (H1 & H2 & H3). simpl.
    rewrite !count_calls_app, count_calls_study_actions, !count_calls_actions
      by done.
    simpl. split; [lia|]. split; [lia|]. destruct o; lia.
Qed.

Lemma res_map_length {A B} (f : A -> res B) (l : list A) (l' : list B) :
  res_map f l = Ok l' -> length l' = length l.
Proof.
  revert l'. induction l as [|x l IH]; simpl; intros l' E.
  - by injection E as <-.
  - destruct (f x) as [y|e]; simpl in E; [|discriminate].
    destruct (res_map f l) as [ys|e]; simpl in E; [|discriminate].
    injection E as <-. simpl. by rewrite (IH ys).
Qed.

Lemma observation_list_length {Obs} (observation : list (string * Obs)) l :
  observation_list observation = Ok l -> length l = length observation.
Proof.
  intros E. apply res_map_length in E. rewrite E.
  unfold sorted_keys. by rewrite merge_sort_Permutation, length_map.
Qed.

Lemma firebase_loop_trace {Obs} cfg answers (observation : list (string * Obs)) :
  firebase_loop cfg answers observation =
  match first_index (fun h => String.eqb h "finished") answers with
  | Some n =>
      (finish observation,
       concat (replicate n [CallCheckFirebaseStatus "autora" (firebase_credentials cfg)
                              (time_out cfg); CallSleep (sleep_time cfg)])
       ++ [CallCheckFirebaseStatus "autora" (firebase_credentials cfg) (time_out cfg);
           CallGetObservations "autora" (firebase_credentials cfg)])
  | None =>
      (Polling,
       concat (replicate (length answers)
                 [CallCheckFirebaseStatus "autora" (firebase_credentials cfg)
                    (time_out cfg); CallSleep (sleep_time cfg)]))
  end.
Proof.
  induction answers as [|h answers IH]; simpl; [done|].
  destruct (String.eqb h "finished"); [done|].
  rewrite IH. by destruct (first_index (fun h => String.eqb h "finished") answers).
Qed.

(** ** X: the runner factories *)

(** The runner built by [firebase_runner] submits its batch to Firebase
    first, and never again during the run. *)
Theorem firebase_runner_sends_batch_once {Obs} cfg x answers
    (observation : list (string * Obs)) :
  exists tr,
    (firebase_runner cfg x answers observation).2 =
      CallSendConditions "autora" x (firebase_credentials cfg) :: tr /\
    count_calls is_send tr = 0.
Proof.
  unfold firebase_runner, firebase_run.
  pose proof (firebase_loop_Forall (fun c => is_send c = false) cfg answers
                observation eq_refl eq_refl eq_refl) as H.
  destruct (firebase_loop cfg answers observation) as [o tr].
  exists tr. split; [done|]. by apply count_calls_Forall_false.
Qed.

(** The runner built by [firebase_prolific_runner] submits its batch to
    Firebase, then creates the Prolific study sized to the batch, before any
    other call; neither call is made again during the run. *)
Theorem firebase_prolific_runner_setup_once {Obs} cfg x pd answers
    (observation : list (string * Obs)) :
  exists tr,
    (firebase_prolific_runner cfg x pd answers observation).2 =
      CallSendConditions "autora" x (firebase_credentials cfg)
      :: CallSetupStudy (study_name cfg) (study_description cfg) (study_url cfg)
           (study_completion_time cfg) (prolific_token cfg)
           (Z.of_nat (length x)) (completion_code cfg)
      :: tr /\
    count_calls is_send tr = 0 /\ count_calls is_setup tr = 0.
Proof.
  unfold firebase_prolific_runner, firebase_prolific_run.
  destruct (let? m := py_getitem pd "maximum_allowed_time" in py_mul m 60)
    as [t|e]; [|by exists []].
  destruct (py_getitem pd "id") as [sid|e]; [|by exists []].
  pose proof (firebase_prolific_loop_Forall (fun c => is_send c = false) cfg pd
                sid t answers observation eq_refl eq_refl (fun _ => eq_refl)
                eq_refl eq_refl None) as H1.
  pose proof (firebase_prolific_loop_Forall (fun c => is_setup c = false) cfg pd
                sid t answers observation eq_refl eq_refl (fun _ => eq_refl)
                eq_refl eq_refl None) as H2.
  destruct (firebase_prolific_loop cfg pd sid t None answers observation)
    as [o tr].
  exists tr. split; [done|]. split; by apply count_calls_Forall_false.
Qed.

(** ** X: the host-only run, call by call *)

(** The host-only run is: [send_conditions], then one
    [check_firebase_status] (with the configured [time_out]) followed by a
    sleep of [sleep_time] for every answer before the first ["finished"],
    then the poll that reads ["finished"] and [get_observations].  Without a
    ["finished"] answer it keeps polling and sleeping. *)
Theorem firebase_run_trace {Obs} cfg x answers (observation : list (string * Obs)) :
  firebase_run cfg x answers observation =
  match first_index (fun h => String.eqb h "finished") answers with
  | Some n =>
      (finish observation,
       CallSendConditions "autora" x (firebase_credentials cfg)
       :: concat (replicate n [CallCheckFirebaseStatus "autora" (firebase_credentials cfg)
                                 (time_out cfg); CallSleep (sleep_time cfg)])
       ++ [CallCheckFirebaseStatus "autora" (firebase_credentials cfg) (time_out cfg);
           CallGetObservations "autora" (firebase_credentials cfg)])
  | None =>
      (Polling,
       CallSendConditions "autora" x (firebase_credentials cfg)
       :: concat (replicate (length answers)
                    [CallCheckFirebaseStatus "autora" (firebase_credentials cfg)
                       (time_out cfg); CallSleep (sleep_time cfg)]))
  end.
Proof.
  unfold firebase_run. rewrite firebase_loop_trace.
  by destruct (first_index (fun h => String.eqb h "finished") answers).
Qed.

(** ** X: sleeping *)


(** ** X: the combined loop reads both platforms on every tick *)

(** In a combined run, [check_prolific_status] is called exactly as often as
    [check_firebase_status]: each tick reads both platforms. *)
Theorem prolific_polled_with_every_host_poll {Obs} cfg x pd answers
    (observation : list (string * Obs)) :
  count_calls is_prolific_poll (firebase_prolific_run cfg x pd answers observation).2
  = count_calls is_poll (firebase_prolific_run cfg x pd answers observation).2.
Proof.
  unfold firebase_prolific_run.
  destruct (let? m := py_getitem pd "maximum_allowed_time" in py_mul m 60)
    as [t|e]; [|done].
  destruct (py_getitem pd "id") as [sid|e] eqn:Hid; [|done].
  pose proof (firebase_prolific_loop_counts cfg pd sid t answers observation
                (py_getitem_Ok_truthy _ _ _ Hid) None) as H.
  destruct (firebase_prolific_loop cfg pd sid t None answers observation)
    as [o tr]. simpl. apply H.
Qed.

(** Over a whole combined run, the recruiter actions (publish, start, pause)
    are never more than the Firebase polls. *)
Theorem study_actions_bounded_by_polls {Obs} cfg x pd answers
    (observation : list (string * Obs)) :
  count_calls is_study_action (firebase_prolific_run cfg x pd answers observation).2
  <= count_calls is_poll (firebase_prolific_run cfg x pd answers observation).2.
Proof.
  unfold firebase_prolific_run.
  destruct (let? m := py_getitem pd "maximum_allowed_time" in py_mul m 60)
    as [t|e]; [|simpl; lia].
  destruct (py_getitem pd "id") as [sid|e] eqn:Hid; [|simpl; lia].
  pose proof (firebase_prolific_loop_counts cfg pd sid t answers observation
                (py_getitem_Ok_truthy _ _ _ Hid) None) as H.
  destruct (firebase_prolific_loop cfg pd sid t None answers observation)
    as [o tr]. simpl. apply H.
Qed.

(** ** X: every Prolific call addresses the study that was set up *)

(** Every [check_prolific_status], [publish_study], [start_study] and
    [pause_study] call of a combined run passes the ["id"] of the answer of
    [setup_study] and the configured [prolific_token]. *)
Theorem prolific_calls_use_study_id {Obs} cfg x pd answers
    (observation : list (string * Obs)) :
  Forall (fun c => match c with
                   | CallCheckProlificStatus s tok | CallStudyAction _ s tok =>
                       py_getitem pd "id" = Ok s /\ tok = prolific_token cfg
                   | _ => True
                   end)
    (firebase_prolific_run cfg x pd answers observation).2.
Proof.
  unfold firebase_prolific_run.
  destruct (let? m := py_getitem pd "maximum_allowed_time" in py_mul m 60)
    as [t|e]; [|by repeat constructor].
  destruct (py_getitem pd "id") as [sid|e] eqn:Hid; [|by repeat constructor].
  pose proof (firebase_prolific_loop_Forall
                (fun c => match c with
                          | CallCheckProlificStatus s tok | CallStudyAction _ s tok =>
                              Ok sid = Ok s /\ tok = prolific_token cfg
                          | _ => True
                          end) cfg pd sid t answers observation
                I (conj eq_refl eq_refl) (fun _ => conj eq_refl eq_refl) I I None) as H.
  destruct (firebase_prolific_loop cfg pd sid t None answers observation).
  simpl in *. by repeat constructor.
Qed.

(** ** X: errors of the combined run *)


(** The concrete errors: a [None] answer of [setup_study] raises
    [TypeError]; a dict without ["maximum_allowed_time"] raises
    [KeyError('maximum_allowed_time')]; a dict with an int
    ["maximum_allowed_time"] but no ["id"] raises [KeyError('id')]. *)
Theorem firebase_prolific_run_setup_answer_errors {Obs} cfg x answers
    (observation : list (string * Obs)) kv z :
  (firebase_prolific_run cfg x PyNoneObj answers observation).1 = Raised TypeError /\
  (assoc_get kv "maximum_allowed_time" = None ->
   (firebase_prolific_run cfg x (PyDict kv) answers observation).1
   = Raised (KeyError "maximum_allowed_time")) /\
  (assoc_get kv "maximum_allowed_time" = Some (PyInt z) -> assoc_get kv "id" = None ->
   (firebase_prolific_run cfg x (PyDict kv) answers observation).1
   = Raised (KeyError "id")).
Proof.
  split; [done|]. split.
  - intros E. unfold firebase_prolific_run. simpl. by rewrite E.
  - intros E1 E2. unfold firebase_prolific_run. simpl. by rewrite E1, E2.
Qed.

(** ** X: the returned list has one element per fetched entry *)

(** When a run of either runner returns, the returned list has as many
    elements as the dict returned by [get_observations] has entries. *)
Theorem returned_length_is_dict_size {Obs} cfg x pd answers answers'
    (observation : list (string * Obs)) :
  (forall l, (firebase_run cfg x answers observation).1 = Returned l ->
             length l = length observation) /\
  (forall l, (firebase_prolific_run cfg x pd answers' observation).1 = Returned l ->
             length l = length observation).
Proof.
  split.
  - pose proof (firebase_loop_fetch cfg answers observation) as H.
    unfold firebase_run. intros l.
    destruct (firebase_loop cfg answers observation) as [[l'| |] tr];
      simpl; intros E; try discriminate.
    injection E as <-. apply observation_list_length, H.
  - unfold firebase_prolific_run. intros l.
    destruct (let? m := py_getitem pd "maximum_allowed_time" in py_mul m 60)
      as [t|e]; [|discriminate].
    destruct (py_getitem pd "id") as [sid|e]; [|discriminate].
    pose proof (firebase_prolific_loop_fetch cfg pd sid t answers' observation None) as H.
    destruct (firebase_prolific_loop cfg pd sid t None answers' observation)
      as [[l'| |] tr]; simpl; intros E; try discriminate.
    injection E as <-. apply observation_list_length, H.
Qed.

(** ** X: no return while submissions are short *)

Lemma first_index_Forall_false {A} (p : A -> bool) (l : list A) :
  Forall (fun a => p a = false) l -> first_index p l = None.
Proof. induction 1 as [|a l Ha _ IH]; simpl; [done|]. by rewrite Ha, IH. Qed.

(** If every Prolific answer reports fewer submissions than available
    places, the combined run never returns and never fetches observations,
    whatever Firebase answers (also ["finished"]). *)
Theorem no_return_while_submissions_short {Obs} cfg x pd answers
    (observation : list (string * Obs)) :
  Forall (fun hr => (number_of_submissions hr.2 < total_available_places hr.2)%Z)
    answers ->
  (forall l, (firebase_prolific_run cfg x pd answers observation).1 <> Returned l) /\
  count_calls is_fetch (firebase_prolific_run cfg x pd answers observation).2 = 0.
Proof.
  intros Hshort.
  assert (first_index (fun hr => completion hr.1 hr.2) answers = None) as Hnone.
  { apply first_index_Forall_false. eapply Forall_impl; [exact Hshort|].
    intros [h r] Hr. unfold completion. simpl in *.
    assert ((total_available_places r <=? number_of_submissions r)%Z = false) as ->
      by (apply Z.leb_gt; lia). done. }
  unfold firebase_prolific_run.
  destruct (let? m := py_getitem pd "maximum_allowed_time" in py_mul m 60)
    as [t|e]; [|split; [intros l; discriminate|done]].
  destruct (py_getitem pd "id") as [sid|e] eqn:Hid;
    [|split; [intros l; discriminate|done]].
  pose proof (firebase_prolific_loop_completion cfg pd sid t answers observation
                (py_getitem_Ok_truthy _ _ _ Hid) None) as H.
  pose proof (firebase_prolific_loop_fetch cfg pd sid t answers observation None) as Hf.
  destruct (firebase_prolific_loop cfg pd sid t None answers observation)
    as [[l| |] tr]; simpl.
  - destruct H as [_ (n & _ & E)]. congruence.
  - destruct H.
  - split; [discriminate|]. exact Hf.
Qed.

Lemma no_return_while_submissions_short_witness :
  Forall (fun hr => (number_of_submissions hr.2 < total_available_places hr.2)%Z)
    [("finished", st 1 2 "STARTED"); ("finished", st 1 2 "PAUSED")] /\
  count_calls is_fetch
    (firebase_prolific_run demo_cfg [PyInt 1; PyInt 2] demo_study
       [("finished", st 1 2 "STARTED"); ("finished", st 1 2 "PAUSED")]
       [("c1", 1%Z)]).2 = 0.
Proof.
  assert (Forall (fun hr => (number_of_submissions hr.2 < total_available_places hr.2)%Z)
            [("finished", st 1 2 "STARTED"); ("finished", st 1 2 "PAUSED")]) as Hf.
  { repeat constructor; simpl; lia. }
  split; [exact Hf|].
  exact (proj2 (no_return_while_submissions_short demo_cfg [PyInt 1; PyInt 2]
                  demo_study _ [("c1", 1%Z)] Hf)).
Defined.
